(** * URL Preview component (SSRFPOCApp.tsx): state lifecycle of the
      preview and clear actions.

    The component is a [StatefulComponent] with five state fields, two tap
    handlers ([handleMakeRequest], [clearResults]), one text handler
    ([onUrlChanged]) and an asynchronous [makeRequest] that suspends once, at
    [await client.get(requestUrl)].  The embedding passes the component
    explicitly, splits [makeRequest] at its single [await], and drives the
    handlers from an event loop to state the lifecycle properties. *)

From Stdlib Require Import List Bool Ascii String NArith ZArith Lia Decimal DecimalN.
From Stdlib Require Strings.Byte.
Import ListNotations.

Local Open Scope N_scope.

(** ** JavaScript strings

    A JS string is a sequence of UTF-16 code units; [length], [trim] and
    template concatenation all work on code units. *)
Module JsString.

Definition code_unit := N.
Definition jsstring := list code_unit.

(** A string literal of the source (all literals of the file are ASCII). *)
Definition lit (s : string) : jsstring :=
  map N_of_ascii (list_ascii_of_string s).

(** ECMAScript [WhiteSpace] and [LineTerminator] code points, the set that
    [String.prototype.trim] strips. *)
Definition is_whitespace (c : code_unit) : bool :=
  (9 <=? c) && (c <=? 13)
  || (c =? 32) || (c =? 160) || (c =? 5760)
  || (8192 <=? c) && (c <=? 8202)
  || (c =? 8232) || (c =? 8233) || (c =? 8239) || (c =? 8287)
  || (c =? 12288) || (c =? 65279).

Fixpoint trimStart (s : jsstring) : jsstring :=
  match s with
  | [] => []
  | c :: rest => if is_whitespace c then trimStart rest else s
  end.

Definition trimEnd (s : jsstring) : jsstring :=
  List.rev (trimStart (List.rev s)).

Definition trim (s : jsstring) : jsstring :=
  trimEnd (trimStart s).

(** Truthiness of a string: [!s] holds exactly for the empty string. *)
Definition falsy (s : jsstring) : bool :=
  match s with
  | [] => true
  | _ :: _ => false
  end.

(** [Number.prototype.toString] on a non-negative integer (an array length):
    its decimal digits, most significant first. *)
Fixpoint digits_of_uint (d : Decimal.uint) : jsstring :=
  match d with
  | Nil => []
  | D0 d => 48 :: digits_of_uint d
  | D1 d => 49 :: digits_of_uint d
  | D2 d => 50 :: digits_of_uint d
  | D3 d => 51 :: digits_of_uint d
  | D4 d => 52 :: digits_of_uint d
  | D5 d => 53 :: digits_of_uint d
  | D6 d => 54 :: digits_of_uint d
  | D7 d => 55 :: digits_of_uint d
  | D8 d => 56 :: digits_of_uint d
  | D9 d => 57 :: digits_of_uint d
  end.

Definition Number_toString (n : nat) : jsstring :=
  digits_of_uint (N.to_uint (N.of_nat n)).

(** Reading a decimal numeral back, used to say what a printed length means. *)
Fixpoint decimal_value_from (acc : N) (s : jsstring) : option N :=
  match s with
  | [] => Some acc
  | c :: rest =>
      if (48 <=? c) && (c <=? 57)
      then decimal_value_from (10 * acc + (c - 48)) rest
      else None
  end.

Definition decimal_value (s : jsstring) : option N :=
  match s with
  | [] => None
  | _ :: _ => decimal_value_from 0 s
  end.

(** [t] occurs in [s] as a contiguous substring. *)
Definition contains (s t : jsstring) : Prop :=
  exists pre post, s = pre ++ t ++ post.

End JsString.
Import JsString.

(** ** State of the component (interface [State], lines 20-26) *)

Record State := mkState {
  url : jsstring;
  status : jsstring;
  responseBody : jsstring;
  responseStatusCode : option Z;
  loading : bool
}.

(** The field initialiser of the class (lines 41-47). *)
Definition initialState : State :=
  {| url := [];
     status := lit "Enter a URL to preview its content";
     responseBody := [];
     responseStatusCode := None;
     loading := false |}.

(** A [Partial<State>]: the object literal handed to [setState]; a field that
    the literal does not mention is [None]. *)
Record PartialState := mkPartial {
  set_url : option jsstring;
  set_status : option jsstring;
  set_responseBody : option jsstring;
  set_responseStatusCode : option (option Z);
  set_loading : option bool
}.

Definition orKeep {A : Type} (new : option A) (old : A) : A :=
  match new with
  | Some v => v
  | None => old
  end.

(** Modelled from the spec: [StatefulComponent.setState] lives in the
    framework (valdi_core), not in this file.  The spec describes it as a
    single mutable state bag updated via merge-style assignment: the fields
    named in the literal are overwritten, the others are kept. *)
Definition mergeState (p : PartialState) (s : State) : State :=
  {| url := orKeep (set_url p) (url s);
     status := orKeep (set_status p) (status s);
     responseBody := orKeep (set_responseBody p) (responseBody s);
     responseStatusCode := orKeep (set_responseStatusCode p) (responseStatusCode s);
     loading := orKeep (set_loading p) (loading s) |}.

(** ** Collaborators *)

(** The native text field behind [urlInput]: only its [value] attribute is
    touched.  [attr_value] is what [getAttribute('value')?.toString()]
    evaluates to, [None] when the attribute is [undefined] or [null]. *)
Record TextField := mkTextField {
  attr_value : option jsstring
}.

Definition setAttribute_value (v : jsstring) (_ : TextField) : TextField :=
  {| attr_value := Some v |}.

(** The response object of [HTTPClient.get]: [body] is an optional
    [Uint8Array]. *)
Record HTTPResponse := mkResponse {
  statusCode : Z;
  body : option (list Byte.byte)
}.

(** What the [catch (error: any)] clause can receive: [null]/[undefined], or
    a value whose [toString()] gives a description. *)
Inductive Thrown :=
| ThrownNullish
| ThrownValue (description : jsstring).

(** [error?.toString()]. *)
Definition Thrown_toString (e : Thrown) : option jsstring :=
  match e with
  | ThrownNullish => None
  | ThrownValue d => Some d
  end.

(** How the awaited promise of [client.get] settles. *)
Inductive GetResult :=
| Fulfilled (response : HTTPResponse)
| Rejected (error : Thrown).

(** The component instance: its state and the element behind the [urlInput]
    reference ([ElementRef.single()] is [undefined] when nothing is
    attached). *)
Record App := mkApp {
  state : State;
  urlInput : option TextField
}.

Definition setState (p : PartialState) (a : App) : App :=
  {| state := mergeState p (state a); urlInput := urlInput a |}.

(** How a handler call ends: it ran to completion, or it issued one GET and
    is suspended at the [await]. *)
Inductive Outcome :=
| Returned
| AwaitingGet (requestUrl : jsstring).

(** Modelled from the spec: the text decode capability
    ([new TextDecoder().decode]) is external; it converts a byte sequence to
    text, or fails ([None]: the exception caught on line 209) when the bytes
    are not valid text. *)
Definition Decoder : Type := list Byte.byte -> option jsstring.

(** ** Handlers *)

Section Handlers.

Variable decode : Decoder.

(** [onUrlChanged] (lines 166-168). *)
Definition onUrlChanged (text : jsstring) (a : App) : App :=
  setState {| set_url := Some text; set_status := None; set_responseBody := None;
              set_responseStatusCode := None; set_loading := None |} a.

Definition emptyUrlError : PartialState :=
  {| set_url := None; set_status := Some (lit "Error: URL cannot be empty");
     set_responseBody := None; set_responseStatusCode := None;
     set_loading := None |}.

(** [makeRequest] up to its [await] (lines 187-203): the synchronous part of
    the async function. *)
Definition makeRequest (url_arg : option jsstring) (a : App) : App * Outcome :=
  let requestUrl :=
    match url_arg with
    | Some u => u
    | None => trim (url (state a))
    end in
  if falsy requestUrl then (setState emptyUrlError a, Returned)
  else
    (setState {| set_url := None;
                 set_status := Some (lit "Loading " ++ requestUrl ++ lit "...");
                 set_responseBody := Some [];
                 set_responseStatusCode := Some None;
                 set_loading := Some true |} a,
     AwaitingGet requestUrl).

(** The text computed on lines 205-212. *)
Definition bodyText (response : HTTPResponse) : jsstring :=
  match body response with
  | None => []
  | Some bytes =>
      match decode bytes with
      | Some text => text
      | None =>
          lit "[Binary data, " ++ Number_toString (List.length bytes) ++ lit " bytes]"
      end
  end.

(** [makeRequest] after its [await] (lines 205-233): the continuation run when
    the GET settles, on whatever the component is at that moment. *)
Definition makeRequest_resume (r : GetResult) (a : App) : App :=
  match r with
  | Fulfilled response =>
      let text := bodyText response in
      setState {| set_url := None;
                  set_status := Some (lit "Content loaded successfully");
                  set_responseBody :=
                    Some (if (0 <? List.length text)%nat then text else lit "[No content]");
                  set_responseStatusCode := Some (Some (statusCode response));
                  set_loading := Some false |} a
  | Rejected error =>
      setState {| set_url := None;
                  set_status :=
                    Some (lit "Error: " ++
                          orKeep (Thrown_toString error) (lit "Unknown error"));
                  set_responseBody := Some [];
                  set_responseStatusCode := Some None;
                  set_loading := Some false |} a
  end.

(** The URL that [handleMakeRequest] reads (line 177): the live value of the
    field when the reference resolves, the tracked state otherwise. *)
Definition submittedUrl (a : App) : jsstring :=
  match urlInput a with
  | Some input => trim (orKeep (attr_value input) [])
  | None => trim (url (state a))
  end.

(** [handleMakeRequest] (lines 170-185). *)
Definition handleMakeRequest (a : App) : App * Outcome :=
  if loading (state a) then (a, Returned)
  else
    let u := submittedUrl a in
    if falsy u then (setState emptyUrlError a, Returned)
    else makeRequest (Some u) a.

(** [clearResults] (lines 236-247). *)
Definition clearResults (a : App) : App :=
  let a1 :=
    setState {| set_url := Some [];
                set_status := Some (lit "Enter a URL to preview its content");
                set_responseBody := Some [];
                set_responseStatusCode := Some None;
                set_loading := None |} a in
  match urlInput a1 with
  | Some input =>
      {| state := state a1; urlInput := Some (setAttribute_value [] input) |}
  | None => a1
  end.

End Handlers.

(** ** Event loop

    The UI event loop delivers one event at a time.  A GET that was issued
    stays outstanding until its promise settles; the settlement then runs the
    rest of [makeRequest] on the component as it is at that moment. *)

Inductive Event :=
| ViewChanged (input : option TextField) (* the field is attached, detached or edited *)
| UrlChanged (text : jsstring)           (* onChange / onEditEnd *)
| PreviewTap
| ClearTap
| GetSettled (r : GetResult).            (* the oldest outstanding GET settles *)

Record System := mkSystem {
  app : App;
  outstanding : list jsstring   (* URLs of the GETs issued and not yet settled *)
}.

Definition initialSystem : System :=
  {| app := {| state := initialState; urlInput := None |}; outstanding := [] |}.

Definition issued (o : Outcome) : list jsstring :=
  match o with
  | Returned => []
  | AwaitingGet u => [u]
  end.

Section EventLoop.

Variable decode : Decoder.

Definition step (sys : System) (e : Event) : System :=
  match e with
  | ViewChanged input =>
      {| app := {| state := state (app sys); urlInput := input |};
         outstanding := outstanding sys |}
  | UrlChanged text =>
      {| app := onUrlChanged text (app sys); outstanding := outstanding sys |}
  | PreviewTap =>
      let (a, o) := handleMakeRequest (app sys) in
      {| app := a; outstanding := outstanding sys ++ issued o |}
  | ClearTap =>
      {| app := clearResults (app sys); outstanding := outstanding sys |}
  | GetSettled r =>
      match outstanding sys with
      | [] => sys
      | _ :: rest =>
          {| app := makeRequest_resume decode r (app sys); outstanding := rest |}
      end
  end.

Definition run (sys : System) (events : list Event) : System :=
  fold_left step events sys.

(** An event that can empty a non-empty [responseBody]: a clear, a failed
    GET, or a preview tap that starts a request. *)
Definition resetsBody (sys : System) (e : Event) : bool :=
  match e with
  | ClearTap => true
  | GetSettled (Rejected _) => true
  | PreviewTap =>
      match snd (handleMakeRequest (app sys)) with
      | AwaitingGet _ => true
      | Returned => false
      end
  | _ => false
  end.

(** No event of the list, run from [sys], is one of those. *)
Fixpoint noBodyReset (sys : System) (events : list Event) : bool :=
  match events with
  | [] => true
  | e :: rest => negb (resetsBody sys e) && noBodyReset (step sys e) rest
  end.

End EventLoop.

(** The URL text that a preview tap reads before trimming. *)
Definition rawUrl (a : App) : jsstring :=
  match urlInput a with
  | Some input => orKeep (attr_value input) []
  | None => url (state a)
  end.

(** A clear or a failed GET, the two events the lifecycle calls a reset. *)
Definition isClearOrFailure (e : Event) : bool :=
  match e with
  | ClearTap => true
  | GetSettled (Rejected _) => true
  | _ => false
  end.

(** ** Test doubles for the concrete runs below *)

(** A decoder that accepts 7-bit bytes only. *)
Definition asciiDecoder : Decoder := fun bytes =>
  if forallb (fun b => Stdlib.Strings.Byte.to_N b <? 128) bytes
  then Some (map Stdlib.Strings.Byte.to_N bytes)
  else None.

Definition bytesOf (s : string) : list Byte.byte :=
  list_byte_of_string s.

Definition typed (s : string) : Event :=
  ViewChanged (Some {| attr_value := Some (lit s) |}).

(** The component while the GET for ["http://a"] is outstanding. *)
Definition loadingSystem : System :=
  run asciiDecoder initialSystem [typed "http://a"; PreviewTap].

Definition hello200 : HTTPResponse :=
  {| statusCode := 200; body := Some (bytesOf "Hello") |}.

Definition empty404 : HTTPResponse :=
  {| statusCode := 404; body := Some [] |}.

(** 37 bytes that are not text. *)
Definition binary37 : HTTPResponse :=
  {| statusCode := 200; body := Some (repeat Byte.xff 37) |}.

(** The component after a 200 response with body ["Hello"]. *)
Definition completedSystem : System :=
  step asciiDecoder loadingSystem (GetSettled (Fulfilled hello200)).

(** The component with three spaces typed in the field. *)
Definition blankSystem : System :=
  run asciiDecoder initialSystem [typed "   "].

(** The component with a padded URL typed in the field. *)
Definition typedSystem : System :=
  run asciiDecoder initialSystem [typed "  http://a  "].

(** The lifecycle invariant of the event loop: [loading] is set exactly while
    one GET is outstanding, and never more than one is. *)
Definition lifecycle_inv (sys : System) : Prop :=
  (outstanding sys = [] /\ loading (state (app sys)) = false)
  \/ (exists u, outstanding sys = [u] /\ loading (state (app sys)) = true).

(** ** The view ([onRender], lines 53-164)

    The element tree that [onRender] emits for a state.  A conditional
    [{cond && <view/>}] contributes its element when [cond] holds and nothing
    otherwise. *)

Inductive Handler :=
| H_onUrlChanged
| H_handleMakeRequest
| H_clearResults.

Inductive Font :=
| systemFont (size : Z)
| systemBoldFont (size : Z).

(** The entries of the [styles] table (lines 250-289), by name. *)
Inductive StyleRef :=
| st_title | st_subtitle | st_label | st_textField
| st_button | st_statusText | st_responseBox | st_responseText.

Inductive RefName :=
| ref_urlInput
| ref_scrollView.

Inductive Attr :=
| a_str (name : string) (v : jsstring)
| a_num (name : string) (v : Z)
| a_bool (name : string) (v : bool)
| a_font (f : Font)
| a_style (s : StyleRef)
| a_ref (r : RefName)
| a_handler (name : string) (h : Handler).

#[local] Unset Elimination Schemes.
Inductive Element :=
| El (tag : string) (attrs : list Attr) (children : list Element).
#[local] Set Elimination Schemes.

(** Strict equality of two strings ([===]). *)
Fixpoint jsstring_eqb (s t : jsstring) : bool :=
  match s, t with
  | [], [] => true
  | c :: s', d :: t' => (c =? d) && jsstring_eqb s' t'
  | _, _ => false
  end.

(** A status code inside a template literal: an integer prints in decimal,
    with a minus sign when negative (the notation JavaScript uses for every
    integer below 10^21 in magnitude, which covers HTTP status codes). *)
Definition Number_toString_Z (z : Z) : jsstring :=
  (if (z <? 0)%Z then [45] else []) ++ digits_of_uint (N.to_uint (Z.abs_N z)).

(** The background of the Preview button (line 86). *)
Definition previewBackground (s : State) : jsstring :=
  if negb (loading s) && (0 <? List.length (url s))%nat
  then lit "#1976d2" else lit "#cccccc".

Definition buttonBox (background : jsstring) (onTap : Handler)
    (margin : list Attr) (caption : string) : Element :=
  El "view"
    ([a_style st_button; a_str "backgroundColor" background;
      a_handler "onTap" onTap] ++ margin ++
     [a_num "padding" 12; a_num "borderRadius" 8; a_num "flexGrow" 1;
      a_str "alignItems" (lit "center"); a_str "justifyContent" (lit "center")])
    [El "label"
       [a_str "value" (lit caption); a_font (systemFont 16);
        a_str "color" (lit "white"); a_bool "touchEnabled" false] []].

(** Lines 56-109: the part of the screen that is always there. *)
Definition fixedPart (s : State) : list Element :=
  [El "view" [a_num "marginTop" 40]
     [El "label"
        [a_style st_title; a_str "value" (lit "URL Preview");
         a_font (systemBoldFont 28)] [];
      El "label"
        [a_style st_subtitle; a_str "value" (lit "Preview content from any URL");
         a_font (systemFont 16); a_num "marginTop" 8] []];
   El "view" [a_num "marginTop" 40]
     [El "label"
        [a_style st_label; a_str "value" (lit "Enter URL:");
         a_font (systemFont 16)] [];
      El "textfield"
        [a_ref ref_urlInput; a_style st_textField;
         a_str "placeholder" (lit "https://example.com");
         a_str "value" (url s);
         a_handler "onChange" H_onUrlChanged;
         a_handler "onEditEnd" H_onUrlChanged;
         a_num "marginTop" 8] []];
   El "view"
     [a_num "marginTop" 20; a_str "flexDirection" (lit "row");
      a_str "width" (lit "100%")]
     [buttonBox (previewBackground s) H_handleMakeRequest [] "Preview";
      buttonBox (lit "#666") H_clearResults [a_num "marginLeft" 10] "Clear"]].

(** Lines 111-120. *)
Definition loadingPart (s : State) : list Element :=
  if loading s then
    [El "view" [a_num "marginTop" 30]
       [El "label"
          [a_style st_statusText; a_str "value" (status s);
           a_font (systemFont 14); a_str "color" (lit "#666")] []]]
  else [].

(** Lines 122-132. *)
Definition statusPart (s : State) : list Element :=
  if negb (loading s)
     && negb (jsstring_eqb (status s) (lit "Enter a URL to preview its content"))
  then
    [El "view" [a_num "marginTop" 30]
       [El "label"
          [a_style st_label; a_str "value" (lit "Status:");
           a_font (systemBoldFont 16)] [];
        El "label"
          [a_style st_statusText; a_str "value" (status s);
           a_font (systemFont 14); a_num "marginTop" 8] []]]
  else [].

(** Lines 134-142. *)
Definition statusCodePart (s : State) : list Element :=
  match responseStatusCode s with
  | Some code =>
      [El "view" [a_num "marginTop" 20]
         [El "label"
            [a_style st_label;
             a_str "value" (lit "HTTP Status: " ++ Number_toString_Z code);
             a_font (systemBoldFont 16)] []]]
  | None => []
  end.

(** Lines 144-161. *)
Definition contentPart (s : State) : list Element :=
  if (0 <? List.length (responseBody s))%nat then
    [El "view" [a_num "marginTop" 20]
       [El "label"
          [a_style st_label; a_str "value" (lit "Content:");
           a_font (systemBoldFont 16)] [];
        El "view"
          [a_style st_responseBox; a_str "backgroundColor" (lit "#f9f9f9");
           a_num "padding" 12; a_num "marginTop" 8; a_num "borderRadius" 8]
          [El "label"
             [a_style st_responseText; a_str "value" (responseBody s);
              a_font (systemFont 12)] []]]]
  else [].

(** [onRender] (lines 53-164). *)
Definition onRender (s : State) : Element :=
  El "view"
    [a_str "backgroundColor" (lit "white"); a_str "width" (lit "100%");
     a_str "height" (lit "100%")]
    [El "scroll"
       [a_ref ref_scrollView; a_num "padding" 20; a_str "width" (lit "100%");
        a_str "height" (lit "100%")]
       (fixedPart s ++ loadingPart s ++ statusPart s ++ statusCodePart s
        ++ contentPart s)].

(** What the screen reads: the [value] of every label, in document order. *)
Definition valueOf (a : Attr) : list jsstring :=
  match a with
  | a_str name v => if String.eqb name "value" then [v] else []
  | _ => []
  end.

Fixpoint labelValues (e : Element) : list jsstring :=
  match e with
  | El tag attrs children =>
      (if String.eqb tag "label" then flat_map valueOf attrs else [])
      ++ flat_map labelValues children
  end.

(** The five captions of the fixed part. *)
Definition fixedLabels : list jsstring :=
  [lit "URL Preview"; lit "Preview content from any URL"; lit "Enter URL:";
   lit "Preview"; lit "Clear"].

(** ** Predicates of the lifecycle properties *)

Definition startsWithWhitespace (s : jsstring) : bool :=
  match s with
  | [] => false
  | c :: _ => is_whitespace c
  end.

(** A request URL as [trim] leaves it: not empty, no whitespace at either
    end. *)
Definition wellTrimmed (u : jsstring) : Prop :=
  u <> []
  /\ startsWithWhitespace u = false
  /\ startsWithWhitespace (List.rev u) = false.

(** The result fields go together: a status code is present exactly when a
    body is, and neither is while loading. *)
Definition results_inv (s : State) : Prop :=
  (responseStatusCode s = None <-> responseBody s = [])
  /\ (loading s = true -> responseBody s = []).

(** * Properties *)

(** ** Strings *)

Lemma falsy_true_iff (s : jsstring) : falsy s = true <-> s = [].
Proof.
  destruct s; simpl; split; intro H; try reflexivity; discriminate.
Qed.

Lemma falsy_false_iff (s : jsstring) : falsy s = false <-> s <> [].
Proof.
  destruct s; simpl; split; intro H; congruence.
Qed.

Lemma trimStart_head (s : jsstring) c rest :
  trimStart s = c :: rest -> is_whitespace c = false.
Proof.
  induction s as [|x s IH]; simpl; [discriminate|].
  destruct (is_whitespace x) eqn:Hx; [exact IH|].
  intros [= <- _]. exact Hx.
Qed.

Lemma trimStart_blank (s : jsstring) :
  trimStart s = [] <-> forallb is_whitespace s = true.
Proof.
  induction s as [|x s IH]; simpl.
  - split; reflexivity.
  - destruct (is_whitespace x); simpl; [exact IH|].
    split; discriminate.
Qed.

Lemma forallb_rev {A} (f : A -> bool) (l : list A) :
  forallb f (List.rev l) = forallb f l.
Proof.
  induction l as [|x l IH]; simpl; [reflexivity|].
  rewrite forallb_app, IH. simpl. rewrite andb_true_r. apply andb_comm.
Qed.

Lemma rev_nil_inv {A} (l : list A) : List.rev l = [] -> l = [].
Proof.
  intro H. rewrite <- (rev_involutive l), H. reflexivity.
Qed.

(** [trim] gives the empty string exactly on whitespace-only input. *)
Lemma trim_blank (s : jsstring) :
  trim s = [] <-> forallb is_whitespace s = true.
Proof.
  unfold trim, trimEnd. split.
  - intro H. apply rev_nil_inv in H. apply trimStart_blank in H.
    rewrite forallb_rev in H.
    destruct (trimStart s) as [|c rest] eqn:Hs.
    + now apply trimStart_blank.
    + apply trimStart_head in Hs. simpl in H. rewrite Hs in H. discriminate.
  - intro H. apply trimStart_blank in H. rewrite H. reflexivity.
Qed.

Example trim_examples :
  trim (lit "  http://a  ") = lit "http://a"
  /\ trim (lit " a b ") = lit "a b"
  /\ trim (lit "   ") = []
  /\ trim [9; 10; 13; 160; 8232; 12288; 65279] = []
  /\ trim [8203; 32] = [8203].
Proof.
  vm_compute. repeat split.
Qed.

Lemma decimal_value_from_digits (d : Decimal.uint) (acc : positive) :
  decimal_value_from (Npos acc) (digits_of_uint d)
  = Some (Npos (Pos.of_uint_acc d acc)).
Proof.
  revert acc.
  induction d as [|d IH|d IH|d IH|d IH|d IH|d IH|d IH|d IH|d IH|d IH];
    intro acc;
    cbn [digits_of_uint decimal_value_from Pos.of_uint_acc];
    try reflexivity;
    match goal with
    | |- (if ?b then _ else _) = _ => change b with true; cbv iota
    end;
    rewrite <- IH; f_equal; lia.
Qed.

Lemma decimal_value_from_zero (d : Decimal.uint) :
  decimal_value_from 0 (digits_of_uint d) = Some (N.of_uint d).
Proof.
  unfold N.of_uint.
  induction d; simpl; try reflexivity; try exact IHd;
    apply decimal_value_from_digits.
Qed.

Lemma digits_of_uint_nonnil (d : Decimal.uint) :
  d <> Nil -> digits_of_uint d <> [].
Proof.
  destruct d; simpl; congruence.
Qed.

Example Number_toString_examples :
  Number_toString 0 = lit "0"
  /\ Number_toString 37 = lit "37"
  /\ Number_toString 4096 = lit "4096".
Proof.
  vm_compute. repeat split.
Qed.

(** The printed length reads back as the length. *)
Lemma decimal_value_Number_toString (n : nat) :
  decimal_value (Number_toString n) = Some (N.of_nat n).
Proof.
  unfold decimal_value, Number_toString.
  assert (Hnn : N.to_uint (N.of_nat n) <> Nil).
  { destruct (N.of_nat n); simpl; [discriminate|].
    apply DecimalPos.Unsigned.to_uint_nonnil. }
  apply digits_of_uint_nonnil in Hnn.
  destruct (digits_of_uint (N.to_uint (N.of_nat n))) eqn:E; [congruence|].
  rewrite <- E, decimal_value_from_zero.
  f_equal. apply DecimalN.Unsigned.of_to.
Qed.

Lemma contains_suffix (pre t : jsstring) : contains (pre ++ t) t.
Proof.
  exists pre, []. now rewrite app_nil_r.
Qed.

(** ** Handlers, one call at a time *)

Lemma submittedUrl_trim (a : App) : submittedUrl a = trim (rawUrl a).
Proof.
  unfold submittedUrl, rawUrl. destruct (urlInput a); reflexivity.
Qed.

Lemma clearResults_state (a : App) :
  state (clearResults a) =
  {| url := [];
     status := lit "Enter a URL to preview its content";
     responseBody := [];
     responseStatusCode := None;
     loading := loading (state a) |}.
Proof.
  destruct a as [s [input|]]; reflexivity.
Qed.

Lemma clearResults_urlInput (a : App) :
  urlInput (clearResults a)
  = option_map (setAttribute_value []) (urlInput a).
Proof.
  destruct a as [s [input|]]; reflexivity.
Qed.

Lemma handleMakeRequest_loading (a : App) :
  loading (state a) = true -> handleMakeRequest a = (a, Returned).
Proof.
  intro H. unfold handleMakeRequest. rewrite H. reflexivity.
Qed.

Lemma handleMakeRequest_blank (a : App) :
  loading (state a) = false -> trim (rawUrl a) = [] ->
  handleMakeRequest a = (setState emptyUrlError a, Returned).
Proof.
  intros Hl Hu. unfold handleMakeRequest.
  rewrite Hl, submittedUrl_trim, Hu. reflexivity.
Qed.

Lemma handleMakeRequest_start (a : App) :
  loading (state a) = false -> trim (rawUrl a) <> [] ->
  handleMakeRequest a =
  (setState {| set_url := None;
               set_status := Some (lit "Loading " ++ trim (rawUrl a) ++ lit "...");
               set_responseBody := Some [];
               set_responseStatusCode := Some None;
               set_loading := Some true |} a,
   AwaitingGet (trim (rawUrl a))).
Proof.
  intros Hl Hu. apply falsy_false_iff in Hu.
  unfold handleMakeRequest, makeRequest.
  rewrite Hl, submittedUrl_trim, Hu. reflexivity.
Qed.

(** The three ways a preview tap can end. *)
Lemma handleMakeRequest_cases (a : App) :
  (loading (state a) = true /\ handleMakeRequest a = (a, Returned))
  \/ (loading (state a) = false /\ trim (rawUrl a) = []
      /\ handleMakeRequest a = (setState emptyUrlError a, Returned))
  \/ (loading (state a) = false /\ trim (rawUrl a) <> []
      /\ exists p, set_loading p = Some true /\ set_responseBody p = Some []
         /\ handleMakeRequest a = (setState p a, AwaitingGet (trim (rawUrl a)))).
Proof.
  destruct (loading (state a)) eqn:Hl.
  - left. split; [reflexivity|]. now apply handleMakeRequest_loading.
  - right. destruct (trim (rawUrl a)) as [|c rest] eqn:Hu.
    + left. repeat split. now apply handleMakeRequest_blank.
    + right. repeat split; [discriminate|].
      eexists. repeat split; [| |rewrite <- Hu; apply handleMakeRequest_start];
        try reflexivity; [assumption|congruence].
Qed.

Section Lifecycle.

Variable decode : Decoder.

Lemma makeRequest_resume_loading (r : GetResult) (a : App) :
  loading (state (makeRequest_resume decode r a)) = false.
Proof.
  destruct r; reflexivity.
Qed.

Lemma fulfilled_responseBody (response : HTTPResponse) (a : App) :
  responseBody (state (makeRequest_resume decode (Fulfilled response) a))
  = if falsy (bodyText decode response) then lit "[No content]"
    else bodyText decode response.
Proof.
  simpl. destruct (bodyText decode response); reflexivity.
Qed.

Lemma fulfilled_responseBody_nonempty (response : HTTPResponse) (a : App) :
  responseBody (state (makeRequest_resume decode (Fulfilled response) a)) <> [].
Proof.
  rewrite fulfilled_responseBody.
  destruct (bodyText decode response) eqn:E; simpl; discriminate.
Qed.

(** ** The event loop *)

Lemma step_preserves_inv (sys : System) (e : Event) :
  lifecycle_inv sys -> lifecycle_inv (step decode sys e).
Proof.
  unfold lifecycle_inv. intro Inv.
  destruct e as [input|text| | |r]; simpl.
  - exact Inv.
  - exact Inv.
  - destruct (handleMakeRequest_cases (app sys))
      as [[Hl ->]|[(Hl & _ & ->)|(Hl & _ & p & Hp & _ & ->)]]; simpl.
    + rewrite app_nil_r. exact Inv.
    + rewrite app_nil_r. exact Inv.
    + destruct Inv as [[Ho _]|(u & _ & Hl')]; [|congruence].
      right. eexists. rewrite Ho, Hp. split; reflexivity.
  - rewrite clearResults_state. exact Inv.
  - destruct Inv as [[Ho Hl]|(u & Ho & Hl)]; rewrite Ho; simpl.
    + left. now rewrite Ho.
    + left. split; [reflexivity|]. apply makeRequest_resume_loading.
Qed.

Lemma run_preserves_inv (events : list Event) (sys : System) :
  lifecycle_inv sys -> lifecycle_inv (run decode sys events).
Proof.
  revert sys. induction events as [|e events IH]; intros sys Inv.
  - exact Inv.
  - simpl. apply IH, step_preserves_inv, Inv.
Qed.

Lemma reachable_inv (events : list Event) :
  lifecycle_inv (run decode initialSystem events).
Proof.
  apply run_preserves_inv. left. split; reflexivity.
Qed.

(** Only a clear, a failed GET or the start of a request empties the body. *)
Lemma step_keeps_responseBody (sys : System) (e : Event) :
  resetsBody sys e = false ->
  responseBody (state (app sys)) <> [] ->
  responseBody (state (app (step decode sys e))) <> [].
Proof.
  intros Hq Hb.
  destruct e as [input|text| | |r].
  - exact Hb.
  - exact Hb.
  - simpl in *.
    destruct (handleMakeRequest_cases (app sys))
      as [[Hl E]|[(Hl & _ & E)|(Hl & _ & p & _ & _ & E)]];
      rewrite E in *; simpl in *; try assumption; discriminate.
  - discriminate.
  - destruct r as [response|error]; [|discriminate].
    unfold step. destruct (outstanding sys); [assumption|].
    apply fulfilled_responseBody_nonempty.
Qed.

Lemma run_keeps_responseBody (events : list Event) (sys : System) :
  noBodyReset decode sys events = true ->
  responseBody (state (app sys)) <> [] ->
  responseBody (state (app (run decode sys events))) <> [].
Proof.
  revert sys. induction events as [|e events IH]; intros sys Hq Hb.
  - exact Hb.
  - simpl in Hq. apply andb_true_iff in Hq as [He Hq].
    apply negb_true_iff in He.
    simpl. apply IH; [exact Hq|]. now apply step_keeps_responseBody.
Qed.

End Lifecycle.

(** ** The clear action *)

(** C1 (as amended): for every prior state, clear sets url to the empty
    string, status to the initial placeholder, responseBody to the empty
    string and responseStatusCode to absent, and leaves loading as it was;
    the result is the initial defaults exactly when loading was false
    (Idle, Completed, Failed). *)
Theorem clearResults_resets_all_but_loading (a : App) :
  state (clearResults a) =
    {| url := [];
       status := lit "Enter a URL to preview its content";
       responseBody := [];
       responseStatusCode := None;
       loading := loading (state a) |}
  /\ (state (clearResults a) = initialState <-> loading (state a) = false).
Proof.
  split; [apply clearResults_state|].
  rewrite clearResults_state. unfold initialState. split.
  - intros [= H]. exact H.
  - intros ->. reflexivity.
Qed.

(** C1, as stated, fails while a request is in flight: after clear the state
    still has loading = true, so it is not the initial defaults. *)
Lemma clearResults_in_flight_not_initial :
  outstanding loadingSystem = [lit "http://a"]
  /\ loading (state (clearResults (app loadingSystem))) = true
  /\ state (clearResults (app loadingSystem)) <> initialState.
Proof.
  repeat split; try reflexivity. discriminate.
Qed.

(** C8: clear is idempotent, on the whole component (state and text field). *)
Theorem clearResults_idempotent (a : App) :
  clearResults (clearResults a) = clearResults a.
Proof.
  destruct a as [s [input|]]; reflexivity.
Qed.

(** C9: clear never writes loading; invoked while a request is in flight it
    leaves loading = true (and the request outstanding). *)
Theorem clearResults_keeps_loading (decode : Decoder) (a : App)
    (events : list Event) :
  loading (state (clearResults a)) = loading (state a)
  /\ (let sys := run decode initialSystem events in
      outstanding sys <> [] ->
      loading (state (app (step decode sys ClearTap))) = true
      /\ outstanding (step decode sys ClearTap) = outstanding sys).
Proof.
  split.
  - now rewrite clearResults_state.
  - intros sys Ho. simpl. rewrite clearResults_state. simpl.
    split; [|reflexivity].
    destruct (reachable_inv decode events) as [[Ho' _]|(u & _ & Hl)];
      [contradiction|exact Hl].
Qed.

(** ** Completion of the GET *)

(** C2: when the GET is fulfilled, the completion handler sets status to the
    success message, responseStatusCode to the response's code (whatever the
    code, 404 included) and loading to false, and leaves url alone;
    responseBody is the decoded text when decoding gives non-empty text, the
    no-content placeholder when the body is absent or decodes to empty text,
    and the binary-data placeholder printing the payload's byte length when
    decoding fails. *)
Theorem makeRequest_resume_fulfilled (decode : Decoder) (a : App)
    (response : HTTPResponse) :
  let a' := makeRequest_resume decode (Fulfilled response) a in
  status (state a') = lit "Content loaded successfully"
  /\ responseStatusCode (state a') = Some (statusCode response)
  /\ loading (state a') = false
  /\ url (state a') = url (state a)
  /\ urlInput a' = urlInput a
  /\ (body response = None -> responseBody (state a') = lit "[No content]")
  /\ (forall bytes text,
        body response = Some bytes -> decode bytes = Some text -> text <> [] ->
        responseBody (state a') = text)
  /\ (forall bytes,
        body response = Some bytes -> decode bytes = Some [] ->
        responseBody (state a') = lit "[No content]")
  /\ (forall bytes,
        body response = Some bytes -> decode bytes = None ->
        responseBody (state a')
        = lit "[Binary data, " ++ Number_toString (List.length bytes) ++ lit " bytes]"
        /\ decimal_value (Number_toString (List.length bytes))
           = Some (N.of_nat (List.length bytes))).
Proof.
  intro a'. subst a'.
  repeat (split; [reflexivity|]).
  rewrite fulfilled_responseBody. unfold bodyText.
  split; [|split; [|split]].
  - intros ->. reflexivity.
  - intros bytes text -> -> Ht. now apply falsy_false_iff in Ht as ->.
  - intros bytes -> ->. reflexivity.
  - intros bytes -> ->. split; [reflexivity|].
    apply decimal_value_Number_toString.
Qed.

(** C5: when the GET is rejected with a transport error, the completion
    handler leaves loading = false, responseStatusCode absent, responseBody
    empty, and a status that contains the error's description (the text
    "Unknown error" for an error without one). *)
Theorem makeRequest_resume_rejected (decode : Decoder) (a : App)
    (error : Thrown) (description : jsstring) :
  let a' := makeRequest_resume decode (Rejected error) a in
  loading (state a') = false
  /\ responseStatusCode (state a') = None
  /\ responseBody (state a') = []
  /\ url (state a') = url (state a)
  /\ status (state a')
     = lit "Error: " ++ orKeep (Thrown_toString error) (lit "Unknown error")
  /\ contains (status (state a'))
       (orKeep (Thrown_toString error) (lit "Unknown error"))
  /\ contains
       (status (state (makeRequest_resume decode
                         (Rejected (ThrownValue description)) a)))
       description.
Proof.
  intro a'. subst a'.
  repeat (split; [reflexivity|]).
  split; apply contains_suffix.
Qed.

(** ** The preview tap *)

(** C3: while loading is true a preview tap changes nothing: the component
    is returned as it was, and no GET is issued. *)
Theorem handleMakeRequest_noop_while_loading (decode : Decoder) (sys : System) :
  loading (state (app sys)) = true ->
  handleMakeRequest (app sys) = (app sys, Returned)
  /\ step decode sys PreviewTap = sys.
Proof.
  intro Hl. pose proof (handleMakeRequest_loading _ Hl) as E.
  split; [exact E|].
  simpl. rewrite E. simpl. rewrite app_nil_r. now destruct sys.
Qed.

(** C4: when loading is false and the URL read by the tap trims to the empty
    string (empty or whitespace only), the tap issues no GET, sets status to
    the empty-URL error, and leaves loading false and every other field as
    it was. *)
Theorem handleMakeRequest_rejects_blank_url (decode : Decoder) (sys : System) :
  loading (state (app sys)) = false ->
  trim (rawUrl (app sys)) = [] ->
  handleMakeRequest (app sys) =
    ({| state := {| url := url (state (app sys));
                    status := lit "Error: URL cannot be empty";
                    responseBody := responseBody (state (app sys));
                    responseStatusCode := responseStatusCode (state (app sys));
                    loading := false |};
        urlInput := urlInput (app sys) |},
     Returned)
  /\ outstanding (step decode sys PreviewTap) = outstanding sys
  /\ (trim (rawUrl (app sys)) = []
      <-> forallb is_whitespace (rawUrl (app sys)) = true).
Proof.
  intros Hl Hu.
  pose proof (handleMakeRequest_blank _ Hl Hu) as E.
  split; [|split].
  - rewrite E. unfold setState, mergeState. simpl. now rewrite Hl.
  - simpl. rewrite E. simpl. apply app_nil_r.
  - apply trim_blank.
Qed.

(** C6: when loading is false and the trimmed URL is not empty, the tap sets
    loading to true, status to "Loading {url}..." for the trimmed URL,
    responseBody to empty and responseStatusCode to absent, and suspends on
    one GET to the trimmed URL: exactly that GET joins the outstanding ones,
    with the state already updated. *)
Theorem handleMakeRequest_starts_request (decode : Decoder) (sys : System) :
  let a := app sys in
  loading (state a) = false ->
  trim (rawUrl a) <> [] ->
  handleMakeRequest a =
    ({| state := {| url := url (state a);
                    status := lit "Loading " ++ trim (rawUrl a) ++ lit "...";
                    responseBody := [];
                    responseStatusCode := None;
                    loading := true |};
        urlInput := urlInput a |},
     AwaitingGet (trim (rawUrl a)))
  /\ outstanding (step decode sys PreviewTap)
     = outstanding sys ++ [trim (rawUrl a)]
  /\ app (step decode sys PreviewTap) = fst (handleMakeRequest a).
Proof.
  intros a Hl Hu.
  pose proof (handleMakeRequest_start _ Hl Hu) as E.
  split; [exact E|].
  simpl. fold a. rewrite E. split; reflexivity.
Qed.

(** C7: every completion path of a preview request ends with loading =
    false: a fulfilled GET (whatever the decoder does), a rejected GET, and
    the rejection of an empty input.  In the event loop loading is false
    whenever no GET is outstanding, and the settlement of the outstanding GET
    leaves none outstanding and loading false. *)
Theorem loading_false_after_completion (decode : Decoder) (a : App)
    (r : GetResult) (events : list Event) :
  loading (state (makeRequest_resume decode r a)) = false
  /\ (loading (state a) = false -> trim (rawUrl a) = [] ->
      loading (state (fst (handleMakeRequest a))) = false
      /\ snd (handleMakeRequest a) = Returned)
  /\ (let sys := run decode initialSystem events in
      (outstanding sys = [] -> loading (state (app sys)) = false)
      /\ (outstanding sys <> [] ->
          outstanding (step decode sys (GetSettled r)) = []
          /\ loading (state (app (step decode sys (GetSettled r)))) = false)).
Proof.
  split; [apply makeRequest_resume_loading|]. split.
  - intros Hl Hu. rewrite (handleMakeRequest_blank _ Hl Hu). simpl.
    split; [exact Hl|reflexivity].
  - intro sys.
    destruct (reachable_inv decode events) as [[Ho Hl]|(u & Ho & Hl)];
      fold sys in Ho, Hl; split; intro H; try congruence.
    unfold step. rewrite Ho. simpl. split; [reflexivity|].
    apply makeRequest_resume_loading.
Qed.

(** ** Non-empty body after a success *)

(** C10 (as amended): once a fulfilled GET has been handled, responseBody is
    not empty: it is non-empty decoded text, the no-content placeholder or
    the binary-data placeholder; and it stays non-empty until a clear, a
    failed GET or the start of a new request, so an empty responseBody
    implies that no request has completed successfully since the last clear,
    failure or request start. *)
Theorem responseBody_nonempty_after_success (decode : Decoder) (sys : System)
    (response : HTTPResponse) (later : list Event) :
  let done := step decode sys (GetSettled (Fulfilled response)) in
  let b := responseBody (state (app done)) in
  outstanding sys <> [] ->
  noBodyReset decode done later = true ->
  b <> []
  /\ ((exists bytes, body response = Some bytes /\ decode bytes = Some b)
      \/ b = lit "[No content]"
      \/ (exists bytes, body response = Some bytes /\ decode bytes = None
          /\ b = lit "[Binary data, " ++ Number_toString (List.length bytes)
                 ++ lit " bytes]"))
  /\ responseBody (state (app (run decode done later))) <> [].
Proof.
  intros done b Ho Hq.
  assert (Ed : app done = makeRequest_resume decode (Fulfilled response) (app sys)).
  { unfold done, step. destruct (outstanding sys); [contradiction|reflexivity]. }
  assert (Hb : b <> []).
  { unfold b. rewrite Ed. apply fulfilled_responseBody_nonempty. }
  split; [exact Hb|]. split.
  - unfold b. rewrite Ed, fulfilled_responseBody. unfold bodyText.
    destruct (body response) as [bytes|]; [|right; left; reflexivity].
    destruct (decode bytes) as [text|] eqn:Hd.
    + destruct text as [|c rest]; [right; left; reflexivity|].
      left. exists bytes. split; [reflexivity|exact Hd].
    + right. right. exists bytes.
      split; [reflexivity|]. split; [exact Hd|reflexivity].
  - now apply run_keeps_responseBody.
Qed.

(** C10, as stated, fails: after a successful completion a new preview tap
    empties responseBody again, with no clear and no failure in between. *)
Lemma responseBody_empty_after_success_and_new_preview :
  exists before response later,
    outstanding (run asciiDecoder initialSystem before) <> []
    /\ existsb isClearOrFailure later = false
    /\ responseBody (state (app (run asciiDecoder initialSystem
                                   (before ++ [GetSettled (Fulfilled response)]))))
       = lit "Hello"
    /\ responseBody (state (app (run asciiDecoder initialSystem
                                   (before ++ GetSettled (Fulfilled response) :: later))))
       = [].
Proof.
  exists [typed "http://a"; PreviewTap], hello200, [PreviewTap].
  repeat split; try reflexivity. discriminate.
Qed.

(** ** Concrete runs *)

Lemma clearResults_after_completion_is_initial :
  loading (state (app completedSystem)) = false
  /\ state (clearResults (app completedSystem)) = initialState.
Proof.
  split; [reflexivity|].
  apply (clearResults_resets_all_but_loading (app completedSystem)).
  reflexivity.
Defined.

Lemma clearResults_keeps_loading_in_flight :
  outstanding loadingSystem <> []
  /\ loading (state (app (step asciiDecoder loadingSystem ClearTap))) = true
  /\ outstanding (step asciiDecoder loadingSystem ClearTap)
     = outstanding loadingSystem.
Proof.
  split; [discriminate|].
  apply (clearResults_keeps_loading asciiDecoder (app loadingSystem)
           [typed "http://a"; PreviewTap]).
  discriminate.
Defined.

Lemma makeRequest_resume_fulfilled_examples :
  responseBody (state (makeRequest_resume asciiDecoder (Fulfilled hello200)
                         (app loadingSystem))) = lit "Hello"
  /\ responseBody (state (makeRequest_resume asciiDecoder (Fulfilled empty404)
                            (app loadingSystem))) = lit "[No content]"
  /\ responseBody (state (makeRequest_resume asciiDecoder (Fulfilled binary37)
                            (app loadingSystem))) = lit "[Binary data, 37 bytes]".
Proof.
  split; [|split].
  - destruct (makeRequest_resume_fulfilled asciiDecoder (app loadingSystem) hello200)
      as (_ & _ & _ & _ & _ & _ & Htext & _).
    apply (Htext (bytesOf "Hello")); [reflexivity|reflexivity|discriminate].
  - destruct (makeRequest_resume_fulfilled asciiDecoder (app loadingSystem) empty404)
      as (_ & _ & _ & _ & _ & _ & _ & Hempty & _).
    apply (Hempty []); reflexivity.
  - destruct (makeRequest_resume_fulfilled asciiDecoder (app loadingSystem) binary37)
      as (_ & _ & _ & _ & _ & _ & _ & _ & Hbinary).
    apply (Hbinary (repeat Byte.xff 37)); reflexivity.
Defined.

Lemma handleMakeRequest_noop_while_loading_run :
  loading (state (app loadingSystem)) = true
  /\ handleMakeRequest (app loadingSystem) = (app loadingSystem, Returned)
  /\ step asciiDecoder loadingSystem PreviewTap = loadingSystem.
Proof.
  split; [reflexivity|].
  apply (handleMakeRequest_noop_while_loading asciiDecoder loadingSystem).
  reflexivity.
Defined.

Lemma handleMakeRequest_rejects_three_spaces :
  loading (state (app blankSystem)) = false
  /\ rawUrl (app blankSystem) = lit "   "
  /\ trim (rawUrl (app blankSystem)) = []
  /\ snd (handleMakeRequest (app blankSystem)) = Returned
  /\ status (state (fst (handleMakeRequest (app blankSystem))))
     = lit "Error: URL cannot be empty"
  /\ outstanding (step asciiDecoder blankSystem PreviewTap) = [].
Proof.
  do 3 (split; [reflexivity|]).
  destruct (handleMakeRequest_rejects_blank_url asciiDecoder blankSystem
              eq_refl eq_refl) as (E & Ho & _).
  rewrite E, Ho. repeat split.
Defined.

Lemma handleMakeRequest_starts_padded_url :
  loading (state (app typedSystem)) = false
  /\ trim (rawUrl (app typedSystem)) = lit "http://a"
  /\ snd (handleMakeRequest (app typedSystem)) = AwaitingGet (lit "http://a")
  /\ state (fst (handleMakeRequest (app typedSystem)))
     = {| url := []; status := lit "Loading http://a...";
          responseBody := []; responseStatusCode := None; loading := true |}
  /\ outstanding (step asciiDecoder typedSystem PreviewTap) = [lit "http://a"].
Proof.
  do 2 (split; [reflexivity|]).
  destruct (handleMakeRequest_starts_request asciiDecoder typedSystem eq_refl)
    as (E & Ho & _); [discriminate|].
  rewrite E, Ho. repeat split.
Defined.

Lemma loading_false_after_dns_failure :
  outstanding loadingSystem <> []
  /\ outstanding (step asciiDecoder loadingSystem
                    (GetSettled (Rejected (ThrownValue (lit "DNS failure"))))) = []
  /\ loading (state (app (step asciiDecoder loadingSystem
                    (GetSettled (Rejected (ThrownValue (lit "DNS failure"))))))) = false.
Proof.
  split; [discriminate|].
  destruct (loading_false_after_completion asciiDecoder (app blankSystem)
              (Rejected (ThrownValue (lit "DNS failure")))
              [typed "http://a"; PreviewTap]) as (_ & _ & _ & Hsettled).
  apply Hsettled. discriminate.
Defined.

Lemma responseBody_kept_by_edits_and_blank_tap :
  outstanding loadingSystem <> []
  /\ noBodyReset asciiDecoder completedSystem
       [UrlChanged (lit "x"); typed " "; PreviewTap] = true
  /\ responseBody (state (app (run asciiDecoder completedSystem
                                 [UrlChanged (lit "x"); typed " "; PreviewTap])))
     <> [].
Proof.
  split; [discriminate|]. split; [reflexivity|].
  apply (responseBody_nonempty_after_success asciiDecoder loadingSystem hello200
           [UrlChanged (lit "x"); typed " "; PreviewTap]);
    [discriminate|reflexivity].
Defined.

(** * Further properties *)

(** ** Trimming *)

Lemma jsstring_eqb_eq (s t : jsstring) : jsstring_eqb s t = true <-> s = t.
Proof.
  revert t. induction s as [|c s IH]; intros [|d t]; simpl;
    try (split; [reflexivity + discriminate | reflexivity + discriminate]).
  rewrite andb_true_iff, N.eqb_eq, IH. split.
  - intros [-> ->]. reflexivity.
  - intros [= -> ->]. split; reflexivity.
Qed.

Lemma trimStart_suffix (s : jsstring) : exists pre, s = pre ++ trimStart s.
Proof.
  induction s as [|c s [pre IH]]; simpl.
  - exists []. reflexivity.
  - destruct (is_whitespace c).
    + exists (c :: pre). simpl. now rewrite <- IH.
    + exists []. reflexivity.
Qed.

Lemma trimStart_keeps_from (l : jsstring) c (m : jsstring) :
  is_whitespace c = false -> trimStart (l ++ c :: m) = trimStart l ++ c :: m.
Proof.
  intro Hc. induction l as [|x l IH]; simpl.
  - now rewrite Hc.
  - destruct (is_whitespace x); [exact IH|reflexivity].
Qed.

Lemma trim_contained (s : jsstring) : contains s (trim s).
Proof.
  unfold trim, trimEnd.
  destruct (trimStart_suffix s) as [pre Hs].
  destruct (trimStart_suffix (List.rev (trimStart s))) as [post Ht].
  exists pre, (List.rev post).
  rewrite <- rev_app_distr, <- Ht, rev_involutive. exact Hs.
Qed.

Lemma trim_no_leading_whitespace (s : jsstring) :
  startsWithWhitespace (trim s) = false.
Proof.
  unfold trim, trimEnd.
  destruct (trimStart s) as [|c r] eqn:Hs; [reflexivity|].
  apply trimStart_head in Hs. simpl List.rev.
  rewrite (trimStart_keeps_from (List.rev r) c [] Hs), rev_unit.
  exact Hs.
Qed.

Lemma trim_no_trailing_whitespace (s : jsstring) :
  startsWithWhitespace (List.rev (trim s)) = false.
Proof.
  unfold trim, trimEnd. rewrite rev_involutive.
  destruct (trimStart (List.rev (trimStart s))) as [|c r] eqn:Hs; [reflexivity|].
  apply trimStart_head in Hs. exact Hs.
Qed.

Lemma trim_wellTrimmed (s : jsstring) : trim s <> [] -> wellTrimmed (trim s).
Proof.
  intro H. repeat split;
    [exact H|apply trim_no_leading_whitespace|apply trim_no_trailing_whitespace].
Qed.

Lemma rawUrl_clearResults (a : App) : rawUrl (clearResults a) = [].
Proof.
  destruct a as [s [input|]]; reflexivity.
Qed.

Lemma issued_wellTrimmed (a : App) (u : jsstring) :
  snd (handleMakeRequest a) = AwaitingGet u -> wellTrimmed u.
Proof.
  intro H.
  destruct (handleMakeRequest_cases a)
    as [[_ E]|[(_ & _ & E)|(_ & Hu & p & _ & _ & E)]];
    rewrite E in H; simpl in H; try discriminate.
  injection H as <-. now apply trim_wellTrimmed.
Qed.

(** ** The handlers, beyond the claims *)

(** X1: a preview tap issues a GET only when loading is false, and the URL it
    requests is the trimmed text it read: not empty, without whitespace at
    either end, and a contiguous part of the raw text. *)
Theorem handleMakeRequest_issues_trimmed (a : App) (u : jsstring) :
  snd (handleMakeRequest a) = AwaitingGet u ->
  loading (state a) = false
  /\ u = trim (rawUrl a)
  /\ wellTrimmed u
  /\ contains (rawUrl a) u.
Proof.
  intro H.
  destruct (handleMakeRequest_cases a)
    as [[_ E]|[(_ & _ & E)|(Hl & Hu & p & _ & _ & E)]];
    rewrite E in H; simpl in H; try discriminate.
  injection H as <-.
  repeat split; try assumption;
    [apply trim_no_leading_whitespace|apply trim_no_trailing_whitespace
    |apply trim_contained].
Qed.

(** X2: [makeRequest] called with a URL of its own uses it as it is: whatever
    loading is and whatever whitespace the URL carries, it sets the loading
    state and issues the GET to exactly that URL; the in-flight guard and the
    trimming are in [handleMakeRequest] only, which issues nothing for the
    same text when it is all whitespace. *)
Theorem makeRequest_explicit_url_verbatim (a : App) (u : jsstring) :
  u <> [] ->
  makeRequest (Some u) a =
    ({| state := {| url := url (state a);
                    status := lit "Loading " ++ u ++ lit "...";
                    responseBody := [];
                    responseStatusCode := None;
                    loading := true |};
        urlInput := urlInput a |},
     AwaitingGet u)
  /\ (forallb is_whitespace u = true ->
      snd (handleMakeRequest
             {| state := state a;
                urlInput := Some {| attr_value := Some u |} |}) = Returned).
Proof.
  intro Hu. split.
  - apply falsy_false_iff in Hu.
    unfold makeRequest. rewrite Hu. reflexivity.
  - intro Hw. apply trim_blank in Hw.
    unfold handleMakeRequest, submittedUrl. simpl. rewrite Hw.
    destruct (loading (state a)); reflexivity.
Qed.

(** X3: [makeRequest] called without a URL falls back to the trimmed tracked
    url and never looks at the text field; when that is empty it only sets
    the empty-URL error status and issues nothing. *)
Theorem makeRequest_without_url (a : App) (field : option TextField) :
  makeRequest None a = makeRequest (Some (trim (url (state a)))) a
  /\ snd (makeRequest None {| state := state a; urlInput := field |})
     = snd (makeRequest None a)
  /\ (trim (url (state a)) = [] ->
      makeRequest None a =
        ({| state := {| url := url (state a);
                        status := lit "Error: URL cannot be empty";
                        responseBody := responseBody (state a);
                        responseStatusCode := responseStatusCode (state a);
                        loading := loading (state a) |};
            urlInput := urlInput a |},
         Returned)).
Proof.
  split; [reflexivity|]. split.
  - unfold makeRequest. simpl. destruct (falsy (trim (url (state a)))); reflexivity.
  - intro H. unfold makeRequest. rewrite H. reflexivity.
Qed.

(** X4: a preview tap right after a clear never issues a GET: the field and
    the tracked url are both empty, so the tap is either dropped (loading) or
    rejected with the empty-URL error. *)
Theorem no_request_right_after_clear (a : App) :
  snd (handleMakeRequest (clearResults a)) = Returned
  /\ (loading (state a) = false ->
      status (state (fst (handleMakeRequest (clearResults a))))
      = lit "Error: URL cannot be empty").
Proof.
  assert (Hu : trim (rawUrl (clearResults a)) = [])
    by now rewrite rawUrl_clearResults.
  assert (Hc : loading (state (clearResults a)) = loading (state a))
    by now rewrite clearResults_state.
  destruct (loading (state a)) eqn:Hl.
  - rewrite (handleMakeRequest_loading _ Hc). split; [reflexivity|discriminate].
  - rewrite (handleMakeRequest_blank _ Hc Hu). split; reflexivity.
Qed.


(** X6: with no text field attached, a preview tap uses the text of the last
    [onUrlChanged], trimmed: when loading is false and that is not empty, the
    GET goes to it. *)
Theorem tap_falls_back_to_tracked_url (a : App) (text : jsstring) :
  urlInput a = None ->
  loading (state a) = false ->
  trim text <> [] ->
  snd (handleMakeRequest (onUrlChanged text a)) = AwaitingGet (trim text)
  /\ url (state (fst (handleMakeRequest (onUrlChanged text a)))) = text.
Proof.
  intros Hi Hl Hu.
  assert (Hr : rawUrl (onUrlChanged text a) = text).
  { unfold rawUrl, onUrlChanged. simpl. now rewrite Hi. }
  assert (Hl' : loading (state (onUrlChanged text a)) = false) by exact Hl.
  rewrite <- Hr in Hu.
  rewrite (handleMakeRequest_start _ Hl' Hu), Hr. split; reflexivity.
Qed.

(** ** Invariants of the event loop *)

Section Reachable.

Variable decode : Decoder.

Lemma results_inv_step (sys : System) (e : Event) :
  results_inv (state (app sys)) ->
  results_inv (state (app (step decode sys e))).
Proof.
  unfold results_inv. intros [Hcb Hlb].
  destruct e as [input|text| | |r].
  - split; assumption.
  - split; assumption.
  - simpl.
    destruct (handleMakeRequest_cases (app sys))
      as [[_ E]|[(_ & _ & E)|(Hl & Hu & _)]].
    + rewrite E. split; assumption.
    + rewrite E. split; assumption.
    + rewrite (handleMakeRequest_start _ Hl Hu). simpl.
      split; [split|]; reflexivity.
  - simpl. rewrite clearResults_state. simpl.
    split; [split|]; reflexivity.
  - unfold step. destruct (outstanding sys); [split; assumption|].
    cbn [app]. split.
    + destruct r as [response|error].
      * pose proof (fulfilled_responseBody_nonempty decode response (app sys)) as Hb.
        split; [discriminate|intro H; contradiction].
      * split; reflexivity.
    + rewrite makeRequest_resume_loading. discriminate.
Qed.

Lemma results_inv_run (events : list Event) (sys : System) :
  results_inv (state (app sys)) ->
  results_inv (state (app (run decode sys events))).
Proof.
  revert sys. induction events as [|e events IH]; intros sys H.
  - exact H.
  - simpl. apply IH, results_inv_step, H.
Qed.

Lemma outstanding_wellTrimmed_step (sys : System) (e : Event) :
  Forall wellTrimmed (outstanding sys) ->
  Forall wellTrimmed (outstanding (step decode sys e)).
Proof.
  intro H. destruct e as [input|text| | |r]; try exact H.
  - simpl. destruct (handleMakeRequest (app sys)) as [a' o] eqn:E. simpl.
    apply Forall_app. split; [exact H|].
    destruct o as [|u]; simpl; [constructor|].
    constructor; [|constructor].
    apply (issued_wellTrimmed (app sys)). now rewrite E.
  - unfold step. destruct (outstanding sys) as [|u rest] eqn:Ho; [now rewrite Ho|].
    simpl. now inversion H.
Qed.

Lemma reachable_results_inv (events : list Event) :
  results_inv (state (app (run decode initialSystem events))).
Proof.
  apply results_inv_run. split; [split|]; reflexivity.
Qed.

Lemma reachable_loading_empty (events : list Event) :
  let s := state (app (run decode initialSystem events)) in
  loading s = true -> responseBody s = [] /\ responseStatusCode s = None.
Proof.
  intros s Hl. destruct (reachable_results_inv events) as [Hcb Hlb].
  split; [exact (Hlb Hl)|]. apply Hcb, Hlb, Hl.
Qed.

Lemma reachable_idle_nothing_outstanding (events : list Event) :
  let sys := run decode initialSystem events in
  loading (state (app sys)) = false -> outstanding sys = [].
Proof.
  intros sys Hl.
  destruct (reachable_inv decode events) as [[Ho _]|(u & _ & Hl')];
    [exact Ho|]. fold sys in Hl'. congruence.
Qed.

(** X7: at most one request is in flight: in every state the event loop can
    reach, at most one GET is outstanding, and loading is true exactly while
    one is. *)
Theorem one_request_at_a_time (events : list Event) :
  let sys := run decode initialSystem events in
  (List.length (outstanding sys) <= 1)%nat
  /\ (loading (state (app sys)) = true <-> outstanding sys <> []).
Proof.
  intro sys.
  destruct (reachable_inv decode events) as [[Ho Hl]|(u & Ho & Hl)];
    fold sys in Ho, Hl; rewrite Ho, Hl; simpl.
  - split; [lia|]. split; [discriminate|congruence].
  - split; [lia|]. split; [discriminate|reflexivity].
Qed.

(** X8: the result fields go together in every reachable state:
    responseStatusCode is absent exactly when responseBody is empty, and both
    are while loading is true. *)
Theorem result_fields_go_together (events : list Event) :
  let s := state (app (run decode initialSystem events)) in
  (responseStatusCode s = None <-> responseBody s = [])
  /\ (loading s = true -> responseBody s = [] /\ responseStatusCode s = None).
Proof.
  intro s. split.
  - apply reachable_results_inv.
  - apply reachable_loading_empty.
Qed.

(** X9: the component never has a GET outstanding to an empty URL or to one
    with whitespace at either end. *)
Theorem outstanding_urls_wellTrimmed (events : list Event) :
  Forall wellTrimmed (outstanding (run decode initialSystem events)).
Proof.
  assert (H : forall sys, Forall wellTrimmed (outstanding sys) ->
                          Forall wellTrimmed (outstanding (run decode sys events))).
  { induction events as [|e rest IH]; intros sys Hs; [exact Hs|].
    simpl. apply IH, outstanding_wellTrimmed_step, Hs. }
  apply H. constructor.
Qed.

(** X10: a clear does not cancel the request: when the GET settles after a
    clear, the handler writes status, body, status code and loading exactly
    as without the clear, so the state differs only in url (empty), and it is
    never the initial state. *)
Theorem late_response_after_clear (sys : System) (r : GetResult) :
  outstanding sys <> [] ->
  let late := run decode sys [ClearTap; GetSettled r] in
  let direct := step decode sys (GetSettled r) in
  state (app late) =
    {| url := [];
       status := status (state (app direct));
       responseBody := responseBody (state (app direct));
       responseStatusCode := responseStatusCode (state (app direct));
       loading := false |}
  /\ outstanding late = outstanding direct
  /\ state (app late) <> initialState.
Proof.
  intros Ho late direct. unfold late, direct, run. simpl.
  destruct (outstanding sys) as [|u rest]; [contradiction|].
  cbn [app outstanding].
  destruct r as [response|error]; simpl; rewrite clearResults_state;
    repeat split; discriminate.
Qed.

End Reachable.

(** ** What the screen shows *)

Lemma labelValues_onRender (s : State) :
  labelValues (onRender s) =
  fixedLabels
  ++ (if loading s then [status s] else [])
  ++ (if negb (loading s)
         && negb (jsstring_eqb (status s)
                    (lit "Enter a URL to preview its content"))
      then [lit "Status:"; status s] else [])
  ++ (match responseStatusCode s with
      | Some code => [lit "HTTP Status: " ++ Number_toString_Z code]
      | None => []
      end)
  ++ (if (0 <? List.length (responseBody s))%nat
      then [lit "Content:"; responseBody s] else []).
Proof.
  unfold onRender, loadingPart, statusPart, statusCodePart, contentPart.
  cbn [labelValues flat_map String.eqb Ascii.eqb Bool.eqb app valueOf fixedPart
       buttonBox].
  rewrite !flat_map_app.
  destruct (loading s); destruct (responseStatusCode s);
    destruct (0 <? List.length (responseBody s))%nat;
    cbn [negb andb];
    try destruct (negb (jsstring_eqb (status s)
                          (lit "Enter a URL to preview its content")));
    reflexivity.
Qed.


Lemma empty_length (s : jsstring) :
  (0 <? List.length s)%nat = false <-> s = [].
Proof.
  destruct s; unfold Nat.ltb; simpl; split; intro H; congruence.
Qed.


(** X11: while a request is in flight the screen shows, after the five fixed
    captions, the status message alone: no "Status:" header, no HTTP status
    line and no content box, in every reachable state with loading true. *)
Theorem loading_screen (decode : Decoder) (events : list Event) :
  let s := state (app (run decode initialSystem events)) in
  loading s = true ->
  labelValues (onRender s) = fixedLabels ++ [status s].
Proof.
  intros s Hl.
  destruct (reachable_loading_empty decode events Hl) as [Hb Hc].
  fold s in Hb, Hc.
  rewrite labelValues_onRender, Hl, Hb, Hc. reflexivity.
Qed.


(** X13: once a rejected GET has been handled the screen shows, after the
    fixed captions, only "Status:" with the error message: no HTTP status
    line and no content box. *)
Theorem failure_screen (decode : Decoder) (a : App) (error : Thrown) :
  labelValues (onRender (state (makeRequest_resume decode (Rejected error) a)))
  = fixedLabels
    ++ [lit "Status:";
        lit "Error: " ++ orKeep (Thrown_toString error) (lit "Unknown error")].
Proof.
  rewrite labelValues_onRender. reflexivity.
Qed.

(** X14: a clear while no request is in flight brings the screen back to
    what the initial state renders: the fixed captions only, an empty text
    field value and a grey Preview button. *)
Theorem cleared_screen (a : App) :
  loading (state a) = false ->
  onRender (state (clearResults a)) = onRender initialState
  /\ labelValues (onRender (state (clearResults a))) = fixedLabels
  /\ previewBackground (state (clearResults a)) = lit "#cccccc".
Proof.
  intro Hl. rewrite clearResults_state, Hl. repeat split.
Qed.

(** X15: in every reachable state the HTTP status line and the content box
    are shown together or not at all. *)
Theorem status_line_and_content_together (decode : Decoder)
    (events : list Event) :
  let s := state (app (run decode initialSystem events)) in
  statusCodePart s = [] <-> contentPart s = [].
Proof.
  intro s.
  destruct (reachable_results_inv decode events) as [H _]. fold s in H.
  unfold statusCodePart, contentPart.
  destruct (responseStatusCode s) as [code|] eqn:Hc.
  - destruct (0 <? List.length (responseBody s))%nat eqn:Hb.
    + split; discriminate.
    + apply empty_length in Hb. apply H in Hb. discriminate.
  - rewrite (proj1 H eq_refl). split; reflexivity.
Qed.

(** X16: a whole preview cycle from a reachable idle state (tap, then the
    GET settles) ends in the state that the completion handler gives on the
    state before the tap: url and text field untouched, nothing outstanding,
    and no trace of the intermediate loading state. *)
Theorem preview_cycle (decode : Decoder) (events : list Event) (r : GetResult) :
  let sys := run decode initialSystem events in
  loading (state (app sys)) = false ->
  trim (rawUrl (app sys)) <> [] ->
  run decode sys [PreviewTap; GetSettled r]
  = {| app := makeRequest_resume decode r (app sys); outstanding := [] |}.
Proof.
  intros sys Hl Hu.
  assert (Ho : outstanding sys = [])
    by exact (reachable_idle_nothing_outstanding decode events Hl).
  unfold run. simpl.
  rewrite (handleMakeRequest_start _ Hl Hu), Ho. simpl.
  destruct (app sys) as [s input]. destruct r; reflexivity.
Qed.

(** ** Concrete runs of the further properties *)

Lemma typed_url_is_requested_trimmed :
  snd (handleMakeRequest (app typedSystem)) = AwaitingGet (lit "http://a")
  /\ rawUrl (app typedSystem) = lit "  http://a  "
  /\ wellTrimmed (lit "http://a")
  /\ contains (lit "  http://a  ") (lit "http://a").
Proof.
  split; [reflexivity|]. split; [reflexivity|].
  apply (handleMakeRequest_issues_trimmed (app typedSystem) (lit "http://a")).
  reflexivity.
Defined.

Lemma makeRequest_sends_padded_url_while_loading :
  loading (state (app loadingSystem)) = true
  /\ snd (makeRequest (Some (lit " x ")) (app loadingSystem))
     = AwaitingGet (lit " x ").
Proof.
  split; [reflexivity|].
  destruct (makeRequest_explicit_url_verbatim (app loadingSystem) (lit " x "))
    as [E _]; [discriminate|].
  rewrite E. reflexivity.
Defined.


Lemma tap_uses_tracked_url_without_field :
  urlInput (app initialSystem) = None
  /\ snd (handleMakeRequest (onUrlChanged (lit " http://b ") (app initialSystem)))
     = AwaitingGet (lit "http://b").
Proof.
  split; [reflexivity|].
  apply (tap_falls_back_to_tracked_url (app initialSystem) (lit " http://b "));
    [reflexivity|reflexivity|discriminate].
Defined.

Lemma late_hello_after_clear :
  outstanding loadingSystem <> []
  /\ state (app (run asciiDecoder loadingSystem
                   [ClearTap; GetSettled (Fulfilled hello200)]))
     = {| url := []; status := lit "Content loaded successfully";
          responseBody := lit "Hello"; responseStatusCode := Some 200%Z;
          loading := false |}.
Proof.
  split; [discriminate|].
  apply (late_response_after_clear asciiDecoder loadingSystem (Fulfilled hello200)).
  discriminate.
Defined.

Lemma loading_screen_run :
  loading (state (app loadingSystem)) = true
  /\ labelValues (onRender (state (app loadingSystem)))
     = fixedLabels ++ [lit "Loading http://a..."].
Proof.
  split; [reflexivity|].
  apply (loading_screen asciiDecoder [typed "http://a"; PreviewTap]).
  reflexivity.
Defined.

Lemma cleared_screen_after_completion :
  loading (state (app completedSystem)) = false
  /\ labelValues (onRender (state (clearResults (app completedSystem))))
     = fixedLabels.
Proof.
  split; [reflexivity|].
  apply (cleared_screen (app completedSystem)). reflexivity.
Defined.

Lemma preview_cycle_hello :
  loading (state (app typedSystem)) = false
  /\ trim (rawUrl (app typedSystem)) <> []
  /\ state (app (run asciiDecoder typedSystem
                   [PreviewTap; GetSettled (Fulfilled hello200)]))
     = {| url := []; status := lit "Content loaded successfully";
          responseBody := lit "Hello"; responseStatusCode := Some 200%Z;
          loading := false |}.
Proof.
  split; [reflexivity|]. split; [discriminate|].
  unfold typedSystem.
  rewrite (preview_cycle asciiDecoder [typed "  http://a  "]
             (Fulfilled hello200) eq_refl); [reflexivity|discriminate].
Defined.
